(** * python-chat-server: the message store and its request handlers

  A shallow embedding of [server.py].  The module-level list [messages]
  is threaded through the handlers as explicit state; an exception that
  leaves a handler is an outcome of its own.  Library calls at the edge of
  the handlers ([urlparse], [parse_qs], [int], [rfile.read], [decode],
  [json.loads], [datetime.now]) are represented by what they hand back to
  the handler, exceptions included.  Console output ([print]) and socket
  writes are not part of the model. *)

From Stdlib Require Import ZArith NArith String Ascii Lia.
From stdpp Require Import base option list gmap.

Local Open Scope Z_scope.

(** ** Python values *)

Module Py.

(** A [str] is a sequence of Unicode code points. *)
Definition pystr : Type := list N.

(** A literal of the source, read as code points. *)
Definition py (s : string) : pystr := N_of_ascii <$> list_ascii_of_string s.

(** [str.isspace] for one code point: the characters [str.strip()] removes. *)
Definition isspace (c : N) : bool :=
  ((0x09 <=? c) && (c <=? 0x0D))%N || ((0x1C <=? c) && (c <=? 0x20))%N
  || (c =? 0x85)%N || (c =? 0xA0)%N || (c =? 0x1680)%N
  || ((0x2000 <=? c) && (c <=? 0x200A))%N
  || (c =? 0x2028)%N || (c =? 0x2029)%N || (c =? 0x202F)%N
  || (c =? 0x205F)%N || (c =? 0x3000)%N.

Fixpoint lstrip (s : pystr) : pystr :=
  match s with
  | [] => []
  | c :: s' => if isspace c then lstrip s' else s
  end.

Definition rstrip (s : pystr) : pystr := reverse (lstrip (reverse s)).

(** [s.strip()] *)
Definition strip (s : pystr) : pystr := rstrip (lstrip s).

(** Empty or whitespace only. *)
Definition blank (s : pystr) : Prop := Forall (λ c, isspace c = true) s.

(** The values [json.loads] can return.  A float keeps its literal. *)
#[warnings="-register-all"] Inductive pyval : Type :=
| PNone
| PBool (b : bool)
| PInt (z : Z)
| PFloat (lit : pystr)
| PStr (s : pystr)
| PList (l : list pyval)
| PDict (d : gmap pystr pyval).

Inductive exn : Type :=
| ValueError
| UnicodeDecodeError
| AttributeError.

(** An expression either has a value or raises. *)
Inductive result (A : Type) : Type :=
| Ok (a : A)
| Raise (e : exn).
Arguments Ok {A} a.
Arguments Raise {A} e.

#[export] Instance result_ret : MRet result := λ A a, Ok a.
#[export] Instance result_bind : MBind result := λ A B f r,
  match r with
  | Ok a => f a
  | Raise e => Raise e
  end.

(** [len(l)] *)
Definition len {A} (l : list A) : Z := Z.of_nat (length l).

(** [l[k:]], with the index adjustment Python applies to a slice start:
    a negative start counts from the end and is clamped at 0, a start past
    the end is clamped at the length. *)
Definition slice_from {A} (l : list A) (k : Z) : list A :=
  let start := if k <? 0 then Z.max (k + len l) 0 else Z.min k (len l) in
  drop (Z.to_nat start) l.

(** [v.get(key, dflt)]: only a dict has the method. *)
Definition get (v : pyval) (key : pystr) (dflt : pyval) : result pyval :=
  match v with
  | PDict d => Ok (default dflt (d !! key))
  | _ => Raise AttributeError
  end.

(** [v.strip()]: only a str has the method. *)
Definition strip_method (v : pyval) : result pystr :=
  match v with
  | PStr s => Ok (strip s)
  | _ => Raise AttributeError
  end.

End Py.

Import Py.

(** ** server.py *)

Module Server.

(** The dict built at lines 74-79.  [username] and [message] hold whatever
    the request body had under those keys. *)
Record Message : Type := {
  id : Z;
  username : pyval;
  message : pyval;
  timestamp : pystr
}.

(** The dicts handed to [_send_response]. *)
Inductive body : Type :=
| Messages (new_messages : list Message) (total : Z)
| Status (message_count : Z)
| Error (error : pystr)
| Success (new_message : Message).

(** What a handler call ends with. *)
Inductive outcome : Type :=
| Json (status_code : Z) (data : body)
| Html
| Raised (e : exn).

(** Line 45, [int(query_params.get('since', [0])[0])], seen from the
    handler: the key is missing and the default [0] is converted, or the
    first value converts to an integer, or [int] raises. *)
Inductive since_param : Type :=
| Absent
| Decimal (k : Z)
| Malformed.

(** Lines 62-66 seen from the handler: [int] of the Content-Length header
    raises, the body is not UTF-8, [json.loads] rejects it, or it loads. *)
Inductive post_data : Type :=
| BadContentLength
| NotUtf8
| NotJson
| Loaded (data : pyval).

(** A GET carries [urlparse(self.path).path] and the [since] of its query;
    a POST carries [self.path] as it came and its body. *)
Inductive request : Type :=
| GET (path : pystr) (since : since_param)
| POST (path : pystr) (body : post_data).

Definition since_index (since : since_param) : result Z :=
  match since with
  | Absent => Ok 0
  | Decimal k => Ok k
  | Malformed => Raise ValueError
  end.

(** An exception leaves the handler; the store is as it was. *)
Definition escape (messages : list Message)
    (r : result (list Message * outcome)) : list Message * outcome :=
  match r with
  | Ok x => x
  | Raise e => (messages, Raised e)
  end.

Definition do_GET (path : pystr) (since : since_param)
    (messages : list Message) : list Message * outcome :=
  if decide (path = py "/") then (messages, Html)
  else if decide (path = py "/messages") then
    escape messages (
      since_index ← since_index since;
      let new_messages := slice_from messages since_index in
      Ok (messages, Json 200 (Messages new_messages (len messages))))
  else if decide (path = py "/status") then
    (messages, Json 200 (Status (len messages)))
  else (messages, Json 404 (Error (py "Not found"))).

Definition do_POST (now : pystr) (path : pystr) (body : post_data)
    (messages : list Message) : list Message * outcome :=
  if decide (path = py "/send") then
    match body with
    | BadContentLength => (messages, Raised ValueError)
    | NotUtf8 => (messages, Raised UnicodeDecodeError)
    | NotJson => (messages, Json 400 (Error (py "Invalid JSON")))
    | Loaded data =>
        escape messages (
          username ← get data (py "username") (PStr (py "Anonymous"));
          message ← get data (py "message") (PStr (py ""));
          stripped ← strip_method message;
          if decide (stripped = []) then
            Ok (messages, Json 400 (Error (py "Message cannot be empty")))
          else
            let new_message :=
              {| id := len messages; username := username;
                 message := message; timestamp := now |} in
            Ok (messages ++ [new_message],
                Json 200 (Success new_message)))
    end
  else (messages, Json 404 (Error (py "Not found"))).

(** One request as the server sees it, with the clock reading
    [datetime.now().strftime(...)] would give while it is handled. *)
Record event : Type := { now : pystr; req : request }.

Definition handle (ev : event) (messages : list Message)
    : list Message * outcome :=
  match req ev with
  | GET path since => do_GET path since messages
  | POST path body => do_POST (now ev) path body messages
  end.

(** [HTTPServer.serve_forever]: requests are handled one after the other;
    the store is carried from each to the next.  An exception that leaves a
    handler is caught by the socket server, which goes on serving. *)
Fixpoint serve (messages : list Message) (evs : list event)
    : list Message * list outcome :=
  match evs with
  | [] => (messages, [])
  | ev :: evs' =>
      let '(messages', out) := handle ev messages in
      let '(final, outs) := serve messages' evs' in
      (final, out :: outs)
  end.

Definition is_success (out : outcome) : bool :=
  match out with
  | Json status_code (Success _) => status_code =? 200
  | _ => false
  end.

(** The store invariant: each message sits at the position its id names. *)
Definition ids_are_positions (messages : list Message) : Prop :=
  ∀ (i : nat) (m : Message), messages !! i = Some m → id m = Z.of_nat i.

End Server.

Import Server.

(** ** Sample traffic *)

Module Demo.

(** A POST to [/send] whose body is the JSON object with these fields. *)
Definition post (clock : string) (fields : list (pystr * pyval)) : event :=
  {| now := py clock;
     req := POST (py "/send") (Loaded (PDict (list_to_map fields))) |}.

Definition three_posts : list event :=
  [ post "2024-05-01 10:00:00"
      [(py "username", PStr (py "alice")); (py "message", PStr (py "hi"))];
    post "2024-05-01 10:00:00"
      [(py "username", PStr (py "bob"));
       (py "message", PStr (py "hello alice"))];
    post "2024-05-01 10:00:07" [(py "message", PStr (py "anyone?"))] ].

(** The store after the three posts, starting from the empty one. *)
Definition three_messages : list Message := (serve [] three_posts).1.

End Demo.

(** ** client.py *)

Module Client.

(** [s.lstrip(chars)] and [s.rstrip(chars)]: characters of [chars] are
    removed from the end while there are any. *)
Fixpoint lstrip_chars (chars s : pystr) : pystr :=
  match s with
  | [] => []
  | c :: s' => if bool_decide (c ∈ chars) then lstrip_chars chars s' else s
  end.

Definition rstrip_chars (chars s : pystr) : pystr :=
  reverse (lstrip_chars chars (reverse s)).

(** [s.startswith(prefix)] *)
Fixpoint startswith (s prefix : pystr) : bool :=
  match prefix, s with
  | [], _ => true
  | p :: prefix', c :: s' => bool_decide (c = p) && startswith s' prefix'
  | _ :: _, [] => false
  end.

(** [v == s] where [s] is a str: only an equal str compares equal. *)
Definition eq_str (v : pyval) (s : pystr) : bool :=
  match v with
  | PStr s' => bool_decide (s' = s)
  | _ => false
  end.

(** The fields [__init__] sets. *)
Record ChatClient : Type := {
  server_url : pystr;
  username : pystr;
  last_message_id : Z;
  running : bool
}.

(** [ChatClient.__init__] *)
Definition init (url : pystr) : ChatClient :=
  {| server_url := rstrip_chars (py "/") url;
     username := py "Anonymous";
     last_message_id := 0;
     running := true |}.

Definition set_username (name : pystr) (c : ChatClient) : ChatClient :=
  {| server_url := server_url c; username := name;
     last_message_id := last_message_id c; running := running c |}.

Definition set_last_message_id (k : Z) (c : ChatClient) : ChatClient :=
  {| server_url := server_url c; username := username c;
     last_message_id := k; running := running c |}.

(** Whether [urlopen] gets through to the server.  When it does not it
    raises [URLError], as it does on a 4xx answer. *)
Inductive link : Type :=
| Up
| Down.

(** What [urlopen] followed by [json.loads] gives for a server outcome:
    only a 200 answer is returned to the caller. *)
Definition reply_of (out : outcome) : option body :=
  match out with
  | Json 200 data => Some data
  | _ => None
  end.


(** [get_messages] *)
Definition get_messages (l : link) (since : Z) (messages : list Message)
    : option body :=
  match l with
  | Down => None
  | Up => reply_of (do_GET (py "/messages") (Decimal since) messages).2
  end.

(** [get_status] *)
Definition get_status (l : link) (messages : list Message) : option body :=
  match l with
  | Down => None
  | Up => reply_of (do_GET (py "/status") Absent messages).2
  end.

(** One pass of the loop in [poll_messages], lines 63-69, given what
    [get_messages] returned: the session afterwards and the messages
    printed, in order. *)
Definition poll_once (data : option body) (c : ChatClient)
    : ChatClient * list Message :=
  match data with
  | Some (Messages ((_ :: _) as msgs) total) =>
      (set_last_message_id total c,
       filter (λ msg, eq_str (Server.username msg) (username c) = false) msgs)
  | _ => (c, [])
  end.

(** A pass together with its fetch. *)
Definition poll_pass (l : link) (messages : list Message) (c : ChatClient)
    : ChatClient * list Message :=
  poll_once (get_messages l (last_message_id c) messages) c.

(** Lines 100-101: the name typed at the prompt. *)
Definition choose_username (typed : pystr) (c : ChatClient) : ChatClient :=
  let name := strip typed in
  set_username (if decide (name = []) then py "Anonymous" else name) c.

(** Lines 105-110: the history shown at start-up, given what
    [get_messages()] returned. *)
Definition load_history (data : option body) (c : ChatClient)
    : ChatClient * list Message :=
  match data with
  | Some (Messages ((_ :: _) as msgs) total) =>
      (set_last_message_id total c, slice_from msgs (-10))
  | _ => (c, [])
  end.

(** Lines 120-126 and 159: what the main loop makes of a typed line. *)
Inductive line_kind : Type :=
| Ignored
| Command (user_input : pystr)
| Chat (user_input : pystr).

Definition read_line (typed : pystr) : line_kind :=
  let user_input := strip typed in
  if decide (user_input = []) then Ignored
  else if startswith user_input (py "/") then Command user_input
  else Chat user_input.

(** Lines 134-138: the body of the [/name] branch, given [cmd_parts]. *)
Definition name_command (cmd_parts : list pystr) (c : ChatClient)
    : ChatClient :=
  match cmd_parts with
  | _ :: arg :: _ =>
      if decide (strip arg = []) then c else set_username (strip arg) c
  | _ => c
  end.


End Client.

(** ** Facts about the built-ins *)

Section Strip.

Implicit Types s : pystr.

Lemma lstrip_blank s : blank s → lstrip s = [].
Proof.
  induction 1 as [|c s Hc _ IH]; simpl; [done|]. by rewrite Hc.
Qed.

Lemma lstrip_nil_blank s : lstrip s = [] → blank s.
Proof.
  induction s as [|c s IH]; simpl; [constructor|].
  destruct (isspace c) eqn:Hc; [|discriminate].
  intros H. constructor; [exact Hc|exact (IH H)].
Qed.

Lemma lstrip_suffix s : lstrip s `suffix_of` s.
Proof.
  induction s as [|c s IH]; simpl; [done|].
  destruct (isspace c); [by apply suffix_cons_r|done].
Qed.

Lemma lstrip_head s : lstrip s = [] ∨ ∃ c t, lstrip s = c :: t ∧ isspace c = false.
Proof.
  induction s as [|c s IH]; simpl; [by left|].
  destruct (isspace c) eqn:Hc; [done|]. right. by exists c, s.
Qed.

Lemma blank_reverse s : blank (reverse s) ↔ blank s.
Proof. unfold blank. by rewrite Forall_reverse. Qed.

Lemma rstrip_nil_blank s : rstrip s = [] ↔ blank s.
Proof.
  unfold rstrip. split.
  - intros H. apply blank_reverse, lstrip_nil_blank.
    apply (f_equal reverse) in H. by rewrite reverse_involutive in H.
  - intros H. apply blank_reverse in H. by rewrite (lstrip_blank _ H).
Qed.

(** [s.strip()] is empty exactly when [s] is empty or all whitespace. *)
Lemma strip_nil_blank s : strip s = [] ↔ blank s.
Proof.
  unfold strip. rewrite rstrip_nil_blank. split.
  - intros H. apply lstrip_nil_blank.
    destruct (lstrip_head s) as [->|(c & t & Heq & Hc)]; [done|].
    rewrite Heq in H. apply Forall_cons in H as [H _]. congruence.
  - intros H. rewrite (lstrip_blank _ H). constructor.
Qed.

Example strip_inner_kept :
  strip (py "  hi  there ") = py "hi  there".
Proof. reflexivity. Qed.

Example strip_unicode_space :
  strip [0x3000; 0x68; 0x69; 0x0A; 0x2009]%N = py "hi".
Proof. reflexivity. Qed.

(** U+200B, the zero-width space, is not whitespace for [str.strip]. *)
Example strip_zero_width_kept : strip [0x200B]%N = [0x200B]%N.
Proof. reflexivity. Qed.

End Strip.

Section Slice.

Context {A : Type}.
Implicit Types l : list A.

Lemma len_nonneg l : 0 ≤ len l.
Proof. unfold len. lia. Qed.

Lemma len_app l1 l2 : len (l1 ++ l2) = len l1 + len l2.
Proof. unfold len. rewrite length_app. lia. Qed.

Lemma slice_from_nonneg l k : 0 ≤ k → slice_from l k = drop (Z.to_nat k) l.
Proof.
  intros Hk. unfold slice_from, len.
  destruct (Z.ltb_spec k 0) as [?|_]; [lia|].
  destruct (Z.le_gt_cases k (Z.of_nat (length l))) as [Hle|Hgt].
  - by rewrite Z.min_l.
  - rewrite Z.min_r by lia. rewrite Nat2Z.id.
    rewrite !drop_ge; [done|lia|lia].
Qed.

Lemma slice_from_neg l k :
  k < 0 → slice_from l k = drop (Z.to_nat (len l + k)) l.
Proof.
  intros Hk. unfold slice_from.
  destruct (Z.ltb_spec k 0) as [_|?]; [|lia].
  f_equal. lia.
Qed.

Lemma len_drop l (n : nat) : len (drop n l) = Z.max 0 (len l - Z.of_nat n).
Proof. unfold len. rewrite length_drop. lia. Qed.

Example slice_from_inside : slice_from [10; 11; 12] 1 = [11; 12].
Proof. reflexivity. Qed.

Example slice_from_past_end : slice_from [10; 11; 12] 5 = [].
Proof. reflexivity. Qed.

Example slice_from_minus_one : slice_from [10; 11; 12] (-1) = [12].
Proof. reflexivity. Qed.

Example slice_from_far_negative :
  slice_from [10; 11; 12] (-7) = [10; 11; 12].
Proof. reflexivity. Qed.

End Slice.

(** ** The handlers, case by case *)

Section Handlers.

Implicit Types (messages : list Message) (d : gmap pystr pyval).

Lemma do_GET_messages since messages :
  do_GET (py "/messages") since messages =
  match since_index since with
  | Ok k => (messages,
             Json 200 (Messages (slice_from messages k) (len messages)))
  | Raise e => (messages, Raised e)
  end.
Proof.
  unfold do_GET. rewrite decide_False by discriminate.
  rewrite decide_True by reflexivity. by destruct since.
Qed.

Lemma do_GET_store path since messages :
  (do_GET path since messages).1 = messages.
Proof.
  unfold do_GET. repeat case_decide; try done. by destruct since.
Qed.

(** A body that loads as a JSON object: what lines 67-85 do with it. *)
Lemma do_POST_dict now d messages :
  do_POST now (py "/send") (Loaded (PDict d)) messages =
  match default (PStr (py "")) (d !! py "message") with
  | PStr text =>
      if decide (strip text = []) then
        (messages, Json 400 (Error (py "Message cannot be empty")))
      else
        let m := {| id := len messages;
                    username := default (PStr (py "Anonymous"))
                                        (d !! py "username");
                    message := PStr text; timestamp := now |} in
        (messages ++ [m], Json 200 (Success m))
  | _ => (messages, Raised AttributeError)
  end.
Proof.
  unfold do_POST. rewrite decide_True by reflexivity.
  unfold get. cbn [mbind result_bind escape].
  destruct (default _ (d !! py "message")); try reflexivity.
  cbn [strip_method mbind result_bind].
  repeat destruct (decide _); done.
Qed.

(** A body that loads as anything but an object has no [get]. *)
Lemma do_POST_not_dict now data messages :
  (∀ d, data ≠ PDict d) →
  do_POST now (py "/send") (Loaded data) messages
  = (messages, Raised AttributeError).
Proof.
  intros Hd. unfold do_POST. rewrite decide_True by reflexivity.
  destruct data; try reflexivity. by destruct (Hd d).
Qed.

(** Every way a POST can end with the success response. *)
Lemma do_POST_success now path body messages messages' m :
  do_POST now path body messages = (messages', Json 200 (Success m)) →
  path = py "/send" ∧
  ∃ d text,
    body = Loaded (PDict d) ∧ d !! py "message" = Some (PStr text) ∧
    strip text ≠ [] ∧
    m = {| id := len messages;
           username := default (PStr (py "Anonymous")) (d !! py "username");
           message := PStr text; timestamp := now |} ∧
    messages' = messages ++ [m].
Proof.
  intros H.
  destruct (decide (path = py "/send")) as [->|Hp]; last first.
  { unfold do_POST in H. rewrite decide_False in H by done. discriminate. }
  split; [done|].
  destruct body as [| | |data];
    try (unfold do_POST in H; rewrite decide_True in H by done;
         discriminate).
  destruct data as [| | | | | |d];
    try (rewrite do_POST_not_dict in H by discriminate; discriminate).
  rewrite do_POST_dict in H.
  destruct (d !! py "message") as [v|] eqn:Hm; simpl in H.
  - destruct v as [| | | |text| |]; try discriminate.
    case_decide as Hs; [discriminate|].
    injection H as <- <-. by exists d, text.
  - discriminate.
Qed.

(** Anything but the success response leaves the store as it was. *)
Lemma do_POST_failure now path body messages :
  is_success (do_POST now path body messages).2 = false →
  (do_POST now path body messages).1 = messages.
Proof.
  destruct (decide (path = py "/send")) as [->|Hp]; last first.
  { unfold do_POST. by rewrite decide_False by done. }
  destruct body as [| | |data];
    try (unfold do_POST; by rewrite decide_True by done).
  destruct data as [| | | | | |d];
    try (by rewrite do_POST_not_dict by discriminate).
  rewrite do_POST_dict.
  destruct (default _ _); try done. by destruct (decide _).
Qed.

Lemma handle_cases ev messages :
  (is_success (handle ev messages).2 = false ∧
   (handle ev messages).1 = messages) ∨
  (∃ m, handle ev messages = (messages ++ [m], Json 200 (Success m)) ∧
        id m = len messages).
Proof.
  destruct (is_success (handle ev messages).2) eqn:Hs.
  - right. unfold handle in *. destruct (req ev) as [path since|path body].
    + exfalso. revert Hs. unfold do_GET.
      repeat case_decide; try done. by destruct since.
    + destruct (do_POST (now ev) path body messages) as [ms' out] eqn:Hp.
      simpl in Hs. destruct out as [code [| | |m]| |]; try done.
      apply Z.eqb_eq in Hs as ->.
      apply do_POST_success in Hp as (_ & d & text & _ & _ & _ & -> & ->).
      by eexists.
  - left. split; [done|]. unfold handle in *.
    destruct (req ev) as [path since|path body];
      [apply do_GET_store|by apply do_POST_failure].
Qed.

End Handlers.

(** ** The serving loop *)

Section Serve.

Implicit Types (messages : list Message) (evs : list event).

Lemma serve_cons messages ev evs :
  serve messages (ev :: evs) =
  ((serve (handle ev messages).1 evs).1,
   (handle ev messages).2 :: (serve (handle ev messages).1 evs).2).
Proof.
  simpl. destruct (handle ev messages) as [messages' out]. simpl.
  by destruct (serve messages' evs).
Qed.

Lemma ids_are_positions_nil : ids_are_positions [].
Proof. by intros i m. Qed.

Lemma ids_are_positions_snoc messages m :
  ids_are_positions messages → id m = len messages →
  ids_are_positions (messages ++ [m]).
Proof.
  intros Hinv Hm i m' Hi.
  apply lookup_app_Some in Hi as [Hi|[Hge Hi]]; [by apply Hinv|].
  apply list_lookup_singleton_Some in Hi as [Hi <-].
  rewrite Hm. unfold len. lia.
Qed.

Lemma handle_ids_are_positions ev messages :
  ids_are_positions messages → ids_are_positions (handle ev messages).1.
Proof.
  intros Hinv.
  destruct (handle_cases ev messages) as [[_ ->]|(m & -> & Hm)]; [done|].
  by apply ids_are_positions_snoc.
Qed.

(** The invariant holds after any traffic whatever. *)
Lemma serve_ids_are_positions evs messages :
  ids_are_positions messages → ids_are_positions (serve messages evs).1.
Proof.
  revert messages. induction evs as [|ev evs IH]; intros messages Hinv.
  - done.
  - rewrite serve_cons. simpl. by apply IH, handle_ids_are_positions.
Qed.

Lemma serve_all_success evs messages :
  Forall (λ out, is_success out = true) (serve messages evs).2 →
  length (serve messages evs).1 = (length messages + length evs)%nat.
Proof.
  revert messages. induction evs as [|ev evs IH]; intros messages Hall.
  - simpl. lia.
  - rewrite serve_cons in Hall |- *. simpl in *.
    apply Forall_cons in Hall as [Hout Hall].
    rewrite (IH _ Hall).
    destruct (handle_cases ev messages) as [[Hf _]|(m & -> & _)];
      [congruence|].
    simpl. rewrite length_app. simpl. lia.
Qed.

(** A post, a fetch from 0 and a status query, from the empty store. *)
Example post_fetch_status :
  let m := {| id := 0; username := PStr (py "alice");
              message := PStr (py "hi");
              timestamp := py "2024-05-01 10:00:00" |} in
  serve []
    [ Demo.post "2024-05-01 10:00:00"
        [(py "username", PStr (py "alice")); (py "message", PStr (py "hi"))];
      {| now := py "2024-05-01 10:00:01";
         req := GET (py "/messages") (Decimal 0) |};
      {| now := py "2024-05-01 10:00:02"; req := GET (py "/status") Absent |} ]
  = ([m], [ Json 200 (Success m); Json 200 (Messages [m] 1);
            Json 200 (Status 1) ]).
Proof. vm_compute. reflexivity. Qed.

End Serve.

(** ** The store after a run of posts *)

(** C1.  After N posts that all succeed, starting from the empty store, the
    store holds N messages and the message at position i has id i. *)
Theorem C1_posts_get_their_positions (evs : list event) :
  Forall (λ out, is_success out = true) (serve [] evs).2 →
  length (serve [] evs).1 = length evs ∧
  ∀ (i : nat) (m : Message), (serve [] evs).1 !! i = Some m → id m = Z.of_nat i.
Proof.
  intros Hall. split.
  - by rewrite (serve_all_success _ _ Hall).
  - apply serve_ids_are_positions, ids_are_positions_nil.
Qed.

Lemma C1_witness :
  length (serve [] Demo.three_posts).1 = length Demo.three_posts ∧
  ∀ (i : nat) (m : Message),
    (serve [] Demo.three_posts).1 !! i = Some m → id m = Z.of_nat i.
Proof.
  apply (C1_posts_get_their_positions Demo.three_posts).
  vm_compute. repeat constructor.
Defined.

(** ** Fetching from an offset *)

Section Fetch.

Implicit Types (messages : list Message) (K : Z).

(** In a store whose ids count up from [base], the messages with id at
    least [K] are what is left after dropping the first [K - base]. *)
Lemma filter_ids_drop messages (base K : Z) :
  (∀ (i : nat) (m : Message),
     messages !! i = Some m → id m = base + Z.of_nat i) →
  filter (λ m, K ≤ id m) messages = drop (Z.to_nat (K - base)) messages.
Proof.
  revert base. induction messages as [|m0 messages IH]; intros base Hids.
  - by rewrite drop_nil.
  - assert (id m0 = base) as H0.
    { rewrite (Hids 0%nat m0 eq_refl). lia. }
    assert (filter (λ m, K ≤ id m) messages
            = drop (Z.to_nat (K - (base + 1))) messages) as Htl.
    { apply IH. intros i m Hi. rewrite (Hids (S i) m Hi). lia. }
    destruct (decide (K ≤ base)) as [Hle|Hgt].
    + rewrite filter_cons_True by lia. rewrite Htl.
      replace (Z.to_nat (K - base)) with 0%nat by lia.
      replace (Z.to_nat (K - (base + 1))) with 0%nat by lia.
      by rewrite !drop_0.
    + rewrite filter_cons_False by lia. rewrite Htl.
      replace (Z.to_nat (K - base))
        with (S (Z.to_nat (K - (base + 1)))) by lia.
      done.
Qed.

Lemma since_is_filter messages K :
  ids_are_positions messages → 0 ≤ K →
  slice_from messages K = filter (λ m, K ≤ id m) messages.
Proof.
  intros Hinv HK. rewrite slice_from_nonneg by done.
  rewrite (filter_ids_drop messages 0 K).
  - by rewrite Z.sub_0_r.
  - intros i m Hi. by rewrite (Hinv i m Hi).
Qed.

End Fetch.

(** C2.  On a store of N messages that satisfies the invariant, a fetch
    with offset K >= 0 answers 200 with exactly the messages whose id is at
    least K, in store order, so that their ids are K, K+1, ...; there are
    max(0, N-K) of them, none when K >= N; the total reported is N. *)
Theorem C2_fetch_since_offset (messages : list Message) (K : Z) :
  ids_are_positions messages → 0 ≤ K →
  let new_messages := filter (λ m, K ≤ id m) messages in
  do_GET (py "/messages") (Decimal K) messages
    = (messages, Json 200 (Messages new_messages (len messages))) ∧
  (∀ (j : nat) (m : Message),
     new_messages !! j = Some m → id m = K + Z.of_nat j) ∧
  len new_messages = Z.max 0 (len messages - K) ∧
  (len messages ≤ K → new_messages = []).
Proof.
  intros Hinv HK new_messages. subst new_messages.
  rewrite <- (since_is_filter messages K Hinv HK).
  rewrite slice_from_nonneg by done.
  repeat split.
  - rewrite do_GET_messages. simpl. by rewrite slice_from_nonneg.
  - intros j m Hj. rewrite lookup_drop in Hj.
    rewrite (Hinv _ _ Hj). lia.
  - rewrite len_drop. lia.
  - intros Hge. apply drop_ge. unfold len in Hge. lia.
Qed.

Lemma C2_witness :
  let new_messages := filter (λ m, 1 ≤ id m) Demo.three_messages in
  do_GET (py "/messages") (Decimal 1) Demo.three_messages
    = (Demo.three_messages,
       Json 200 (Messages new_messages (len Demo.three_messages))) ∧
  (∀ (j : nat) (m : Message),
     new_messages !! j = Some m → id m = 1 + Z.of_nat j) ∧
  len new_messages = Z.max 0 (len Demo.three_messages - 1) ∧
  (len Demo.three_messages ≤ 1 → new_messages = []).
Proof.
  apply (C2_fetch_since_offset Demo.three_messages 1); [|lia].
  intros i m. destruct i as [|[|[|i]]]; vm_compute;
    intros H; inversion H; reflexivity.
Defined.

(** ** Posting *)

(** C3.  A post whose text is empty or all whitespace is answered with
    400 "Message cannot be empty"; the store is left exactly as it was, so
    no message is created. *)
Theorem C3_blank_text_rejected
    (clock : pystr) (d : gmap pystr pyval) (text : pystr)
    (messages : list Message) :
  d !! py "message" = Some (PStr text) → blank text →
  do_POST clock (py "/send") (Loaded (PDict d)) messages
    = (messages, Json 400 (Error (py "Message cannot be empty"))).
Proof.
  intros Hd Hblank. rewrite do_POST_dict, Hd. simpl.
  apply strip_nil_blank in Hblank. by rewrite decide_True.
Qed.

Lemma C3_witness :
  do_POST (py "2024-05-01 10:00:09") (py "/send")
    (Loaded (PDict {[ py "message" := PStr (py "   ") ]}))
    Demo.three_messages
  = (Demo.three_messages, Json 400 (Error (py "Message cannot be empty"))).
Proof.
  apply (C3_blank_text_rejected _ _ (py "   ")).
  - vm_compute. reflexivity.
  - vm_compute. repeat constructor.
Defined.

(** C10.  A body that is a JSON object without a "message" key is answered
    with 400 "Message cannot be empty", which is not the "Invalid JSON"
    answer; the store is left as it was. *)
Theorem C10_missing_message_key
    (clock : pystr) (d : gmap pystr pyval) (messages : list Message) :
  d !! py "message" = None →
  do_POST clock (py "/send") (Loaded (PDict d)) messages
    = (messages, Json 400 (Error (py "Message cannot be empty"))) ∧
  do_POST clock (py "/send") (Loaded (PDict d)) messages
    ≠ (messages, Json 400 (Error (py "Invalid JSON"))).
Proof.
  intros Hd.
  assert (do_POST clock (py "/send") (Loaded (PDict d)) messages
    = (messages, Json 400 (Error (py "Message cannot be empty")))) as ->.
  { rewrite do_POST_dict, Hd. reflexivity. }
  split; [done|]. intros H. discriminate H.
Qed.

Lemma C10_witness :
  let body := Loaded (PDict {[ py "username" := PStr (py "carol") ]}) in
  do_POST (py "2024-05-01 10:00:09") (py "/send") body Demo.three_messages
    = (Demo.three_messages,
       Json 400 (Error (py "Message cannot be empty"))) ∧
  do_POST (py "2024-05-01 10:00:09") (py "/send") body Demo.three_messages
    ≠ (Demo.three_messages, Json 400 (Error (py "Invalid JSON"))).
Proof.
  apply C10_missing_message_key. vm_compute. reflexivity.
Defined.

(** The text " hi " is accepted and kept with its surrounding spaces: the
    stored and echoed message is not the trimmed text "hi". *)
Lemma C4_counterexample :
  ∃ m : Message,
    do_POST (py "2024-05-01 10:00:09") (py "/send")
      (Loaded (PDict {[ py "message" := PStr (py " hi ") ]})) []
    = ([m], Json 200 (Success m)) ∧
    message m = PStr (py " hi ") ∧
    strip (py " hi ") = py "hi" ∧
    message m ≠ PStr (strip (py " hi ")).
Proof.
  eexists. split; [vm_compute; reflexivity|].
  split; [reflexivity|]. split; [vm_compute; reflexivity|].
  vm_compute. intros H. discriminate H.
Qed.

(** C4, amended.  A post succeeds only on a JSON object whose "message" is
    a string that is not blank; the message appended to the store and echoed
    in the response carries that string as it was sent, untrimmed. *)
Theorem C4_text_stored_as_sent
    (clock path : pystr) (body : post_data)
    (messages messages' : list Message) (m : Message) :
  do_POST clock path body messages = (messages', Json 200 (Success m)) →
  ∃ (d : gmap pystr pyval) (text : pystr),
    body = Loaded (PDict d) ∧ d !! py "message" = Some (PStr text) ∧
    ¬ blank text ∧ message m = PStr text ∧ messages' = messages ++ [m].
Proof.
  intros H.
  apply do_POST_success in H as (_ & d & text & -> & Hd & Hs & -> & ->).
  exists d, text. repeat split; try done.
  by rewrite <- strip_nil_blank.
Qed.

Lemma C4_witness :
  ∃ (d : gmap pystr pyval) (text : pystr),
    Loaded (PDict {[ py "message" := PStr (py " hi ") ]}) = Loaded (PDict d) ∧
    d !! py "message" = Some (PStr text) ∧ ¬ blank text ∧
    message {| id := 0; username := PStr (py "Anonymous");
               message := PStr (py " hi ");
               timestamp := py "2024-05-01 10:00:09" |} = PStr text ∧
    [ {| id := 0; username := PStr (py "Anonymous");
         message := PStr (py " hi ");
         timestamp := py "2024-05-01 10:00:09" |} ]
    = [] ++ [ {| id := 0; username := PStr (py "Anonymous");
                 message := PStr (py " hi ");
                 timestamp := py "2024-05-01 10:00:09" |} ].
Proof.
  apply (C4_text_stored_as_sent (py "2024-05-01 10:00:09") (py "/send")).
  vm_compute. reflexivity.
Defined.

(** An empty username and a whitespace-only one are both stored as sent,
    not replaced by "Anonymous". *)
Lemma C5_counterexample :
  ∃ m1 m2 : Message,
    do_POST (py "2024-05-01 10:00:09") (py "/send")
      (Loaded (PDict {[ py "username" := PStr (py "");
                        py "message" := PStr (py "hi") ]})) []
    = ([m1], Json 200 (Success m1)) ∧
    username m1 = PStr (py "") ∧ username m1 ≠ PStr (py "Anonymous") ∧
    do_POST (py "2024-05-01 10:00:09") (py "/send")
      (Loaded (PDict {[ py "username" := PStr (py "  ");
                        py "message" := PStr (py "hi") ]})) []
    = ([m2], Json 200 (Success m2)) ∧
    blank (py "  ") ∧
    username m2 = PStr (py "  ") ∧ username m2 ≠ PStr (py "Anonymous").
Proof.
  do 2 eexists. split; [vm_compute; reflexivity|].
  split; [reflexivity|]. split; [vm_compute; intros H; discriminate H|].
  split; [vm_compute; reflexivity|].
  split; [vm_compute; repeat constructor|].
  split; [reflexivity|]. vm_compute. intros H. discriminate H.
Qed.

(** C5, amended.  In a successful post the stored username is "Anonymous"
    when the body has no "username" key, and otherwise the value under that
    key exactly as sent, be it empty, blank, or not a string at all. *)
Theorem C5_username_default_on_absence
    (clock : pystr) (d : gmap pystr pyval)
    (messages messages' : list Message) (m : Message) :
  do_POST clock (py "/send") (Loaded (PDict d)) messages
    = (messages', Json 200 (Success m)) →
  (d !! py "username" = None → username m = PStr (py "Anonymous")) ∧
  (∀ u : pyval, d !! py "username" = Some u → username m = u).
Proof.
  intros H.
  apply do_POST_success in H as (_ & d' & text & Hb & _ & _ & -> & _).
  injection Hb as <-. simpl. split.
  - by intros ->.
  - by intros u ->.
Qed.

Lemma C5_witness :
  let d : gmap pystr pyval :=
    {[ py "username" := PStr (py ""); py "message" := PStr (py "hi") ]} in
  let m := {| id := 0; username := PStr (py ""); message := PStr (py "hi");
              timestamp := py "2024-05-01 10:00:09" |} in
  (d !! py "username" = None → username m = PStr (py "Anonymous")) ∧
  (∀ u : pyval, d !! py "username" = Some u → username m = u).
Proof.
  intros d m.
  apply (C5_username_default_on_absence (py "2024-05-01 10:00:09") d [] [m]).
  vm_compute. reflexivity.
Defined.

(** ** Negative offsets, repeated fetches, malformed requests *)

(** With three messages in the store, offset -1 yields only the last one,
    where offset 0 yields all three. *)
Lemma C6_counterexample :
  ∃ m0 m1 m2 : Message,
    Demo.three_messages = [m0; m1; m2] ∧
    do_GET (py "/messages") (Decimal (-1)) Demo.three_messages
      = (Demo.three_messages, Json 200 (Messages [m2] 3)) ∧
    do_GET (py "/messages") (Decimal 0) Demo.three_messages
      = (Demo.three_messages, Json 200 (Messages [m0; m1; m2] 3)) ∧
    do_GET (py "/messages") (Decimal (-1)) Demo.three_messages
      ≠ do_GET (py "/messages") (Decimal 0) Demo.three_messages.
Proof.
  do 3 eexists. split; [vm_compute; reflexivity|].
  split; [vm_compute; reflexivity|]. split; [vm_compute; reflexivity|].
  vm_compute. intros H. discriminate H.
Qed.

(** C6, amended.  On a store of N messages a fetch with offset K < 0
    answers 200 with the last min(N, -K) messages and total N; the answer is
    that of offset 0 exactly when -K >= N. *)
Theorem C6_negative_offset_counts_from_end
    (messages : list Message) (K : Z) :
  K < 0 →
  let new_messages := drop (Z.to_nat (len messages + K)) messages in
  do_GET (py "/messages") (Decimal K) messages
    = (messages, Json 200 (Messages new_messages (len messages))) ∧
  len new_messages = Z.min (len messages) (- K) ∧
  (do_GET (py "/messages") (Decimal K) messages
     = do_GET (py "/messages") (Decimal 0) messages
   ↔ len messages ≤ - K).
Proof.
  intros HK new_messages. subst new_messages.
  rewrite !do_GET_messages. simpl.
  rewrite slice_from_neg by done. rewrite slice_from_nonneg by done.
  simpl. rewrite drop_0. split; [done|]. split; [|split].
  - rewrite len_drop. pose proof (len_nonneg messages). lia.
  - intros H. injection H as H. apply (f_equal length) in H.
    rewrite length_drop in H. unfold len in *. lia.
  - intros Hle. replace (Z.to_nat (len messages + K)) with 0%nat by lia.
    by rewrite drop_0.
Qed.

Lemma C6_witness :
  let new_messages :=
    drop (Z.to_nat (len Demo.three_messages + -2)) Demo.three_messages in
  do_GET (py "/messages") (Decimal (-2)) Demo.three_messages
    = (Demo.three_messages,
       Json 200 (Messages new_messages (len Demo.three_messages))) ∧
  len new_messages = Z.min (len Demo.three_messages) (- -2) ∧
  (do_GET (py "/messages") (Decimal (-2)) Demo.three_messages
     = do_GET (py "/messages") (Decimal 0) Demo.three_messages
   ↔ len Demo.three_messages ≤ - -2).
Proof.
  apply (C6_negative_offset_counts_from_end Demo.three_messages (-2)). lia.
Defined.

(** C7.  Three requests after which no response is written: a JSON object
    whose "message" is the number 5, a JSON array, and a [since] that is not
    an integer.  Each raises out of the handler; the store is untouched. *)
Theorem C7_unhandled_exceptions (clock : pystr) (messages : list Message) :
  do_POST clock (py "/send")
    (Loaded (PDict {[ py "message" := PInt 5 ]})) messages
    = (messages, Raised AttributeError) ∧
  do_POST clock (py "/send") (Loaded (PList [])) messages
    = (messages, Raised AttributeError) ∧
  do_GET (py "/messages") Malformed messages
    = (messages, Raised ValueError).
Proof.
  split; [|split].
  - rewrite do_POST_dict. by rewrite lookup_singleton_eq.
  - by apply do_POST_not_dict.
  - by rewrite do_GET_messages.
Qed.

(** C8.  A GET leaves the store as it was, and asking again with the same
    path and offset, nothing posted in between, gives the same answer. *)
Theorem C8_fetch_idempotent_read_only
    (path : pystr) (since : since_param) (messages : list Message) :
  (do_GET path since messages).1 = messages ∧
  do_GET path since (do_GET path since messages).1
    = do_GET path since messages.
Proof.
  assert ((do_GET path since messages).1 = messages) as H
    by apply do_GET_store.
  split; [done|]. by rewrite H.
Qed.

(** ** More on the handlers *)

Section HandlerFacts.

Implicit Types (messages : list Message) (evs : list event).



Lemma handle_prefix ev messages :
  messages `prefix_of` (handle ev messages).1.
Proof.
  destruct (handle_cases ev messages) as [[_ ->]|(m & -> & _)]; [done|].
  by apply prefix_app_r.
Qed.

Lemma serve_prefix evs messages :
  messages `prefix_of` (serve messages evs).1.
Proof.
  revert messages. induction evs as [|ev evs IH]; intros messages; [done|].
  rewrite serve_cons. simpl.
  etrans; [apply handle_prefix|apply IH].
Qed.



End HandlerFacts.

(** X1.  The store is append-only: whatever requests are served, the store that
    was there stays as the front part of the new one, so a message keeps its
    position and its content for good. *)
Theorem store_is_append_only (messages : list Message) (evs : list event) :
  messages `prefix_of` (serve messages evs).1 ∧
  ∀ (i : nat) (m : Message),
    messages !! i = Some m → (serve messages evs).1 !! i = Some m.
Proof.
  split; [apply serve_prefix|].
  intros i m Hi. by apply (prefix_lookup_Some messages), serve_prefix.
Qed.






(** ** Fetching and posting together *)

Section FetchFacts.

Implicit Types (messages : list Message).

Lemma slice_from_app_len {A} (l1 l2 : list A) :
  slice_from (l1 ++ l2) (len l1) = l2.
Proof.
  rewrite slice_from_nonneg by apply len_nonneg.
  unfold len. rewrite Nat2Z.id. apply drop_app_length.
Qed.

Lemma slice_from_suffix {A} (l : list A) (k : Z) :
  slice_from l k `suffix_of` l.
Proof. unfold slice_from. apply suffix_drop. Qed.

Lemma ids_are_positions_seq messages :
  ids_are_positions messages →
  id <$> messages = Z.of_nat <$> seq 0 (length messages).
Proof.
  intros Hinv. apply list_eq. intros i.
  rewrite !list_lookup_fmap.
  destruct (messages !! i) as [m|] eqn:Hi; simpl.
  - rewrite lookup_seq_lt by (by eapply lookup_lt_Some).
    simpl. by rewrite (Hinv i m Hi).
  - apply lookup_ge_None in Hi. by rewrite lookup_seq_ge.
Qed.

End FetchFacts.

(** X7.  Polling from the last total loses and repeats nothing: whatever is
    served after a store of N messages, a fetch with [since] = N answers
    with exactly the messages added since, and the new total. *)
Theorem fetch_since_total_gets_the_new
    (messages : list Message) (evs : list event) :
  ∃ new : list Message,
    (serve messages evs).1 = messages ++ new ∧
    do_GET (py "/messages") (Decimal (len messages)) (serve messages evs).1
    = ((serve messages evs).1,
       Json 200 (Messages new (len messages + len new))).
Proof.
  destruct (serve_prefix evs messages) as [new Hnew].
  exists new. split; [done|].
  rewrite do_GET_messages. simpl. rewrite Hnew.
  by rewrite slice_from_app_len, len_app.
Qed.

(** X8.  The id echoed by a successful post is the offset that fetches the new
    message: right after the post, a fetch with [since] = id answers with
    that one message and total id + 1. *)
Theorem posted_message_fetched_by_id
    (clock path : pystr) (body : post_data)
    (messages messages' : list Message) (m : Message) :
  do_POST clock path body messages = (messages', Json 200 (Success m)) →
  do_GET (py "/messages") (Decimal (id m)) messages'
  = (messages', Json 200 (Messages [m] (id m + 1))).
Proof.
  intros H.
  apply do_POST_success in H as (_ & d & text & _ & _ & _ & Hm & ->).
  assert (id m = len messages) as -> by (by rewrite Hm).
  rewrite do_GET_messages. simpl.
  rewrite slice_from_app_len, len_app. reflexivity.
Qed.

Lemma posted_message_fetched_by_id_witness :
  let m := {| id := 0; username := PStr (py "Anonymous");
              message := PStr (py "hi");
              timestamp := py "2024-05-01 10:00:09" |} in
  do_GET (py "/messages") (Decimal (id m)) [m]
  = ([m], Json 200 (Messages [m] (id m + 1))).
Proof.
  intros m.
  apply (posted_message_fetched_by_id (py "2024-05-01 10:00:09")
           (py "/send")
           (Loaded (PDict {[ py "message" := PStr (py "hi") ]})) [] [m] m).
  vm_compute. reflexivity.
Defined.

(** X9.  A GET that answers with a list of messages is a 200 at [/messages];
    the list is a tail end of the store, whatever [since] was, the total is
    the store's length, and without a [since] the list is the whole store. *)
Theorem fetch_answers_a_suffix
    (path : pystr) (since : since_param) (messages new : list Message)
    (code total : Z) :
  (do_GET path since messages).2 = Json code (Messages new total) →
  path = py "/messages" ∧ code = 200 ∧
  new `suffix_of` messages ∧ total = len messages ∧
  (since = Absent → new = messages).
Proof.
  intros H.
  assert (path = py "/messages") as ->.
  { unfold do_GET in H. by repeat case_decide. }
  rewrite do_GET_messages in H. split; [done|].
  destruct since as [|k|]; simpl in H; try discriminate.
  - injection H as <- <- <-.
    assert (slice_from messages 0 = messages) as ->.
    { rewrite slice_from_nonneg by done. apply drop_0. }
    done.
  - injection H as <- <- <-. split; [done|]. split; [|done].
    apply slice_from_suffix.
Qed.

Lemma fetch_answers_a_suffix_witness :
  py "/messages" = py "/messages" ∧ 200 = 200 ∧
  slice_from Demo.three_messages (-2) `suffix_of` Demo.three_messages ∧
  3 = len Demo.three_messages ∧
  (Decimal (-2) = Absent →
   slice_from Demo.three_messages (-2) = Demo.three_messages).
Proof.
  apply (fetch_answers_a_suffix (py "/messages") (Decimal (-2))
           Demo.three_messages).
  vm_compute. reflexivity.
Defined.


(** X11.  After any requests served from the empty store, the ids in the store
    are 0, 1, 2, ... in order, so no two messages share an id. *)
Theorem ids_never_repeat (evs : list event) :
  id <$> (serve [] evs).1
    = Z.of_nat <$> seq 0 (length (serve [] evs).1) ∧
  NoDup (id <$> (serve [] evs).1).
Proof.
  assert (id <$> (serve [] evs).1
          = Z.of_nat <$> seq 0 (length (serve [] evs).1)) as Heq.
  { apply ids_are_positions_seq, serve_ids_are_positions,
      ids_are_positions_nil. }
  split; [done|]. rewrite Heq.
  apply NoDup_fmap_2; [apply Nat2Z.inj'|apply NoDup_seq].
Qed.

(** ** More on [strip] *)

Section StripFacts.

Implicit Types s t : pystr.

Lemma lstrip_fixed c t : isspace c = false → lstrip (c :: t) = c :: t.
Proof. intros H. simpl. by rewrite H. Qed.

Lemma lstrip_idemp s : lstrip (lstrip s) = lstrip s.
Proof.
  destruct (lstrip_head s) as [->|(c & t & -> & Hc)]; [done|].
  by apply lstrip_fixed.
Qed.

Lemma rstrip_idemp s : rstrip (rstrip s) = rstrip s.
Proof. unfold rstrip. by rewrite reverse_involutive, lstrip_idemp. Qed.

Lemma rstrip_prefix s : rstrip s `prefix_of` s.
Proof.
  unfold rstrip. apply prefix_suffix_reverse.
  rewrite reverse_involutive. apply lstrip_suffix.
Qed.

(** What [strip] returns is empty or begins with a character that is not
    whitespace. *)
Lemma strip_head s :
  strip s = [] ∨ ∃ c t, strip s = c :: t ∧ isspace c = false.
Proof.
  unfold strip.
  destruct (lstrip_head s) as [->|(c & t & Heq & Hc)]; [by left|].
  rewrite Heq. destruct (rstrip (c :: t)) as [|c' t'] eqn:Hr; [by left|].
  right. exists c', t'. split; [done|].
  pose proof (rstrip_prefix (c :: t)) as Hp. rewrite Hr in Hp.
  by apply prefix_cons_inv_1 in Hp as ->.
Qed.

Lemma strip_idemp s : strip (strip s) = strip s.
Proof.
  destruct (strip_head s) as [->|(c & t & Heq & Hc)]; [done|].
  unfold strip at 1. rewrite Heq, (lstrip_fixed _ _ Hc), <- Heq.
  unfold strip. apply rstrip_idemp.
Qed.

Lemma strip_not_blank s : strip s ≠ [] → ¬ blank (strip s).
Proof.
  intros Hne Hb. apply strip_nil_blank in Hb.
  rewrite strip_idemp in Hb. done.
Qed.

End StripFacts.

(** ** The client *)

Section ClientFacts.

Implicit Types (messages : list Message) (c : Client.ChatClient).

Lemma lstrip_chars_replicate chars (x : N) (n : nat) s :
  x ∈ chars →
  Client.lstrip_chars chars (replicate n x ++ s) = Client.lstrip_chars chars s.
Proof.
  intros Hx. induction n as [|n IH]; simpl; [done|].
  by rewrite bool_decide_eq_true_2.
Qed.

Lemma lstrip_chars_head chars s :
  Client.lstrip_chars chars s = [] ∨
  ∃ x t, Client.lstrip_chars chars s = x :: t ∧ x ∉ chars.
Proof.
  induction s as [|x s IH]; simpl; [by left|].
  case_bool_decide; [done|]. right. by exists x, s.
Qed.

(** The replies of the server to the client's two GETs. *)
Lemma get_messages_up since messages :
  Client.get_messages Client.Up since messages
  = Some (Messages (slice_from messages since) (len messages)).
Proof. unfold Client.get_messages. by rewrite do_GET_messages. Qed.

Lemma get_status_up messages :
  Client.get_status Client.Up messages = Some (Status (len messages)).
Proof. reflexivity. Qed.


End ClientFacts.

Section ClientMoreFacts.

Implicit Types (messages : list Message) (c : Client.ChatClient).

Lemma lstrip_chars_suffix chars s :
  Client.lstrip_chars chars s `suffix_of` s.
Proof.
  induction s as [|x s IH]; simpl; [done|].
  case_bool_decide; [by apply suffix_cons_r|done].
Qed.

Lemma drop_nil_or_cons {A} (l : list A) (n : nat) :
  (drop n l = [] ∧ (length l ≤ n)%nat) ∨
  (∃ x t, drop n l = x :: t ∧ (n < length l)%nat).
Proof.
  destruct (drop n l) as [|x t] eqn:Hd.
  - left. split; [done|]. apply (f_equal length) in Hd.
    rewrite length_drop in Hd. simpl in Hd. lia.
  - right. exists x, t. split; [done|]. apply (f_equal length) in Hd.
    rewrite length_drop in Hd. simpl in Hd. lia.
Qed.


(** A pass with the server in reach, at an offset that is not negative. *)
Lemma poll_pass_up messages c :
  0 ≤ Client.last_message_id c →
  (Client.poll_pass Client.Up messages c).2
    = filter (λ msg, Client.eq_str (username msg) (Client.username c) = false)
        (drop (Z.to_nat (Client.last_message_id c)) messages) ∧
  Client.last_message_id (Client.poll_pass Client.Up messages c).1
    = Z.max (Client.last_message_id c) (len messages) ∧
  Client.username (Client.poll_pass Client.Up messages c).1
    = Client.username c.
Proof.
  intros HK. unfold Client.poll_pass. rewrite get_messages_up.
  rewrite slice_from_nonneg by done. unfold Client.poll_once.
  destruct (drop_nil_or_cons messages (Z.to_nat (Client.last_message_id c)))
    as [[-> Hle]|(x & t & -> & Hlt)]; simpl.
  - repeat split. unfold len. lia.
  - repeat split. unfold len. lia.
Qed.

End ClientMoreFacts.

(** X12.  [__init__] drops every trailing slash of the server URL and nothing
    else: the URL kept is the front part of the one given, does not end in a
    slash, and is the same however many slashes were appended. *)
Theorem init_ignores_trailing_slashes (url : pystr) (n : nat) :
  Client.server_url (Client.init (url ++ replicate n 0x2F%N))
    = Client.server_url (Client.init url) ∧
  last (Client.server_url (Client.init url)) ≠ Some 0x2F%N ∧
  Client.server_url (Client.init url) `prefix_of` url.
Proof.
  unfold Client.init. simpl. unfold Client.rstrip_chars. split; [|split].
  - rewrite reverse_app, reverse_replicate.
    rewrite lstrip_chars_replicate; [done|]. apply list_elem_of_singleton.
    reflexivity.
  - rewrite last_reverse.
    destruct (lstrip_chars_head (py "/") (reverse url))
      as [->|(x & t & -> & Hx)]; [done|].
    simpl. intros [= ->]. apply Hx, list_elem_of_singleton. reflexivity.
  - apply prefix_suffix_reverse. rewrite reverse_involutive.
    apply lstrip_chars_suffix.
Qed.

(** X13.  One pass of the poller at offset K >= 0 against a store of N messages:
    it prints the messages from position K on whose username is not the
    session's own, in store order; the offset becomes max(K, N), so it never
    goes back; the username is untouched.  With the server out of reach the
    pass changes nothing and prints nothing. *)
Theorem poll_catches_up (messages : list Message) (c : Client.ChatClient) :
  0 ≤ Client.last_message_id c →
  (Client.poll_pass Client.Up messages c).2
    = filter (λ msg, Client.eq_str (username msg) (Client.username c) = false)
        (drop (Z.to_nat (Client.last_message_id c)) messages) ∧
  Client.last_message_id (Client.poll_pass Client.Up messages c).1
    = Z.max (Client.last_message_id c) (len messages) ∧
  Client.username (Client.poll_pass Client.Up messages c).1
    = Client.username c ∧
  Client.poll_pass Client.Down messages c = (c, []).
Proof.
  intros HK.
  destruct (poll_pass_up messages c HK) as (H1 & H2 & H3). done.
Qed.

Lemma poll_catches_up_witness :
  let c := Client.set_last_message_id 1
             (Client.set_username (py "alice") (Client.init (py "http://h/"))) in
  (Client.poll_pass Client.Up Demo.three_messages c).2
    = filter (λ msg, Client.eq_str (username msg) (Client.username c) = false)
        (drop (Z.to_nat (Client.last_message_id c)) Demo.three_messages) ∧
  Client.last_message_id (Client.poll_pass Client.Up Demo.three_messages c).1
    = Z.max (Client.last_message_id c) (len Demo.three_messages) ∧
  Client.username (Client.poll_pass Client.Up Demo.three_messages c).1
    = Client.username c ∧
  Client.poll_pass Client.Down Demo.three_messages c = (c, []).
Proof.
  intros c. apply (poll_catches_up Demo.three_messages c).
  vm_compute. discriminate.
Defined.

(** X14.  The session's username is never empty and never has surrounding
    whitespace: [__init__] sets "Anonymous", and both the prompt and the
    [/name] command store a trimmed, non-empty name or keep what was
    there. *)
Theorem client_username_stays_trimmed
    (url typed : pystr) (cmd_parts : list pystr) (c : Client.ChatClient) :
  Client.username c ≠ [] → strip (Client.username c) = Client.username c →
  let trimmed (u : pystr) := u ≠ [] ∧ strip u = u in
  trimmed (Client.username (Client.init url)) ∧
  trimmed (Client.username (Client.choose_username typed c)) ∧
  trimmed (Client.username (Client.name_command cmd_parts c)).
Proof.
  intros Hne Hst trimmed. subst trimmed. simpl. split; [|split].
  - split; [discriminate|reflexivity].
  - destruct (decide (strip typed = [])) as [He|He].
    + split; [discriminate|reflexivity].
    + split; [done|apply strip_idemp].
  - unfold Client.name_command.
    destruct cmd_parts as [|cmd [|arg rest]]; try done.
    destruct (decide (strip arg = [])); [done|].
    simpl. split; [done|apply strip_idemp].
Qed.

Lemma client_username_stays_trimmed_witness :
  let c := Client.init (py "http://localhost:8080") in
  let trimmed (u : pystr) := u ≠ [] ∧ strip u = u in
  trimmed (Client.username (Client.init (py "http://localhost:8080/"))) ∧
  trimmed (Client.username (Client.choose_username (py "  bob ") c)) ∧
  trimmed (Client.username
             (Client.name_command [py "/name"; py " carol  "] c)).
Proof.
  intros c.
  apply (client_username_stays_trimmed _ (py "  bob ")
           [py "/name"; py " carol  "] c).
  - vm_compute. discriminate.
  - vm_compute. reflexivity.
Defined.

Section SayFacts.

Implicit Types (messages : list Message) (c : Client.ChatClient).



Lemma eq_str_refl s : Client.eq_str (PStr s) s = true.
Proof. simpl. by apply bool_decide_eq_true_2. Qed.

End SayFacts.

(** X15.  Pressing Enter on a line that is empty or all whitespace sends
    nothing: the main loop ignores exactly the blank lines. *)
Theorem read_line_ignores_exactly_blank (typed : pystr) :
  Client.read_line typed = Client.Ignored ↔ blank typed.
Proof.
  rewrite <- strip_nil_blank. unfold Client.read_line. simpl.
  destruct (decide (strip typed = [])) as [He|Hne]; [done|].
  split; [|done]. by destruct (Client.startswith _ _).
Qed.







(** X19.  At start-up the client shows the last ten messages of the store, all
    of them when there are fewer, in store order, and takes the store's
    length as its offset; with an empty store the session is left as it
    was. *)
Theorem history_shows_last_ten
    (messages : list Message) (c : Client.ChatClient) :
  let loaded :=
    Client.load_history (Client.get_messages Client.Up 0 messages) c in
  loaded.2 = drop (length messages - 10) messages ∧
  len loaded.2 = Z.min 10 (len messages) ∧
  loaded.1 = match messages with
             | [] => c
             | _ :: _ => Client.set_last_message_id (len messages) c
             end.
Proof.
  intros loaded. subst loaded. rewrite get_messages_up.
  rewrite slice_from_nonneg by done. simpl. rewrite drop_0.
  destruct messages as [|m0 messages]; [done|].
  unfold Client.load_history. cbn [fst snd].
  rewrite slice_from_neg by done.
  replace (Z.to_nat (len (m0 :: messages) + -10))
    with (length (m0 :: messages) - 10)%nat by (unfold len; lia).
  split; [done|]. split; [|done].
  rewrite len_drop. unfold len. lia.
Qed.

(** ** Error answers *)

(** X20.  A POST is answered 400 in exactly two ways at [/send]: "Invalid JSON"
    when [json.loads] rejects the body, and "Message cannot be empty" when
    the body is a JSON object whose "message" is missing or a blank
    string. *)
Theorem post_rejects_iff
    (clock path : pystr) (body : post_data) (messages : list Message)
    (e : pystr) :
  (do_POST clock path body messages).2 = Json 400 (Error e) ↔
  path = py "/send" ∧
  ((body = NotJson ∧ e = py "Invalid JSON") ∨
   (∃ d : gmap pystr pyval,
      body = Loaded (PDict d) ∧ e = py "Message cannot be empty" ∧
      (d !! py "message" = None ∨
       ∃ text, d !! py "message" = Some (PStr text) ∧ blank text))).
Proof.
  split.
  - destruct (decide (path = py "/send")) as [->|Hp]; last first.
    { unfold do_POST. by rewrite decide_False by done. }
    intros H. split; [done|].
    destruct body as [| | |data];
      try (unfold do_POST in H; rewrite decide_True in H by done;
           discriminate).
    + left. unfold do_POST in H. rewrite decide_True in H by done.
      by injection H as <-.
    + right. destruct data as [| | | | | |d];
        try (rewrite do_POST_not_dict in H by discriminate; discriminate).
      exists d. rewrite do_POST_dict in H.
      destruct (d !! py "message") as [v|] eqn:Hv; simpl in H.
      * destruct v as [| | | |text| |]; try discriminate.
        destruct (decide (strip text = [])) as [Hs|Hs]; [|discriminate].
        injection H as <-. split; [done|]. split; [done|].
        right. exists text. split; [done|]. by apply strip_nil_blank.
      * injection H as <-. split; [done|]. split; [done|]. by left.
  - intros (-> & [[-> ->]|(d & -> & -> & Hd)]).
    + unfold do_POST. by rewrite decide_True by done.
    + rewrite do_POST_dict.
      destruct Hd as [->|(text & -> & Hb)]; [done|]. simpl.
      apply strip_nil_blank in Hb. by rewrite decide_True.
Qed.

(** X21.  The 404 "Not found" answer is given exactly off the served paths: a
    GET gets it unless the path is [/], [/messages] or [/status]; a POST gets
    it unless the request path is [/send], whatever the body, which is not
    looked at. *)
Theorem not_found_iff
    (clock path : pystr) (since : since_param) (body : post_data)
    (messages : list Message) :
  ((do_GET path since messages).2 = Json 404 (Error (py "Not found")) ↔
   path ≠ py "/" ∧ path ≠ py "/messages" ∧ path ≠ py "/status") ∧
  ((do_POST clock path body messages).2 = Json 404 (Error (py "Not found")) ↔
   path ≠ py "/send").
Proof.
  split.
  - unfold do_GET. repeat case_decide; subst; split; try done.
    + by intros (? & ? & ?).
    + destruct since; discriminate.
    + by intros (? & ? & ?).
    + by intros (? & ? & ?).
  - destruct (decide (path = py "/send")) as [->|Hp].
    + split; [|done]. intros H. exfalso.
      destruct body as [| | |data];
        try (unfold do_POST in H; rewrite decide_True in H by done;
             discriminate).
      destruct data as [| | | | | |d];
        try (rewrite do_POST_not_dict in H by discriminate; discriminate).
      rewrite do_POST_dict in H.
      destruct (default _ _); try discriminate.
      by destruct (decide _).
    + unfold do_POST. by rewrite decide_False by done.
Qed.

(** ** Polling over time *)

(** X22.  Two passes of the poller, the store having grown in between and the
    session having sent nothing itself: together they print each message
    from the first offset on that is not the session's own exactly once, in
    store order, and the offset ends at the store's length. *)
Theorem successive_polls_show_each_message_once
    (messages new : list Message) (c : Client.ChatClient) :
  0 ≤ Client.last_message_id c ≤ len messages →
  let first := Client.poll_pass Client.Up messages c in
  let second := Client.poll_pass Client.Up (messages ++ new) first.1 in
  first.2 ++ second.2
    = filter (λ msg, Client.eq_str (username msg) (Client.username c) = false)
        (drop (Z.to_nat (Client.last_message_id c)) (messages ++ new)) ∧
  Client.last_message_id second.1 = len (messages ++ new).
Proof.
  intros [HK HN] first second. subst first second.
  destruct (poll_pass_up messages c HK) as (H1 & H2 & H3).
  rewrite Z.max_r in H2 by done.
  assert (0 ≤ Client.last_message_id
                (Client.poll_pass Client.Up messages c).1) as HK'.
  { rewrite H2. apply len_nonneg. }
  destruct (poll_pass_up (messages ++ new) _ HK') as (G1 & G2 & G3).
  rewrite G1, G2, H1, H2, H3. split.
  - unfold len at 1. rewrite Nat2Z.id, drop_app_length.
    rewrite drop_app_le by (unfold len in HN; lia).
    by rewrite filter_app.
  - rewrite len_app. pose proof (len_nonneg new). lia.
Qed.

Lemma successive_polls_show_each_message_once_witness :
  let c := Client.set_last_message_id 1
             (Client.set_username (py "bob")
                (Client.init (py "http://localhost:8080"))) in
  let new := [ {| id := 3; username := PStr (py "dave");
                  message := PStr (py "morning");
                  timestamp := py "2024-05-01 10:00:08" |} ] in
  let first := Client.poll_pass Client.Up Demo.three_messages c in
  let second :=
    Client.poll_pass Client.Up (Demo.three_messages ++ new) first.1 in
  first.2 ++ second.2
    = filter (λ msg, Client.eq_str (username msg) (Client.username c) = false)
        (drop (Z.to_nat (Client.last_message_id c))
           (Demo.three_messages ++ new)) ∧
  Client.last_message_id second.1 = len (Demo.three_messages ++ new).
Proof.
  intros c new.
  apply (successive_polls_show_each_message_once Demo.three_messages new c).
  vm_compute. split; discriminate.
Defined.
